(** * Week3/exercise_script.py: legend handles, reprojection, spatial join
      and population aggregates

    A shallow embedding of the script [src/Week3/exercise_script.py].  The
    only function the script defines, [generate_handles], is embedded
    statement by statement in a small exception monad, with the checks of
    the matplotlib patch constructor as a parameter.  The geopandas and
    pandas calls the script makes ([to_crs], [sjoin], [sum], [groupby]) are
    modelled on the columns the script reads, with the geometry kernel (the
    coordinate transform and the spatial predicate) kept abstract. *)

From stdpp Require Import base option list strings gmap fin_maps.
From Stdlib Require Import ZArith Lia.

Local Open Scope Z_scope.

(** ** Python values and exceptions *)

Module Py.

(** The exceptions the modelled statements can raise. *)
Inductive exn : Type :=
| ZeroDivisionError
| IndexError
| ValueError
| TypeError
| ProjectionError
| CRSMismatchError.

(** The outcome of running a statement or evaluating an expression. *)
Inductive result (A : Type) : Type :=
| Ok (a : A)
| Raise (e : exn).
Global Arguments Ok {A} a.
Global Arguments Raise {A} e.

Definition bind {A B} (m : result A) (k : A → result B) : result B :=
  match m with
  | Ok a => k a
  | Raise e => Raise e
  end.

(** [len(l)] *)
Definition len {A} (l : list A) : Z := Z.of_nat (length l).

(** [a % b] on ints: the sign follows the divisor, as [Z.modulo] does;
    a zero divisor raises. *)
Definition mod_ (a b : Z) : result Z :=
  if b =? 0 then Raise ZeroDivisionError else Ok (a `mod` b).

(** [l[i]]: a negative index counts from the end, an index out of range
    raises. *)
Definition getitem {A} (l : list A) (i : Z) : result A :=
  let j := if i <? 0 then len l + i else i in
  if j <? 0 then Raise IndexError
  else match l !! Z.to_nat j with
       | Some a => Ok a
       | None => Raise IndexError
       end.

(** [range(n)] *)
Definition range (n : Z) : list Z := Z.of_nat <$> seq 0 (Z.to_nat n).

(** [for i in xs: body], with the variables the body assigns threaded as
    the state [s]; an exception leaves the loop at once. *)
Fixpoint for_in {A S} (xs : list A) (body : A → S → result S) (s : S)
  : result S :=
  match xs with
  | [] => Ok s
  | x :: xs' => bind (body x s) (for_in xs' body)
  end.

End Py.

(** [x ← m; k] runs [m] and, unless it raised, continues with [k]. *)
Global Instance result_bind : MBind Py.result := λ A B k m, Py.bind m k.
Global Instance result_ret : MRet Py.result := λ A a, Py.Ok a.

(** ** The legend handle generator (lines 10-15) *)

Module Legend.
Import Py.

(** A matplotlib colour specification, as the script writes them:
    ['k'], ['r'], ['none']. *)
Definition color := string.

(** A constructed rectangle patch, by the arguments it was built from:
    [xy], [width], [height], [facecolor], [edgecolor] and [alpha].  The
    opacity has some Python type [T]; whether a value of it, or a colour
    string, is acceptable is decided when the patch is built, by
    [Rectangle_init]. *)
Record Rectangle (T : Type) : Type := mkRectangle {
  xy : Z * Z;
  width : Z;
  height : Z;
  facecolor : color;
  edgecolor : color;
  alpha : T
}.
Global Arguments mkRectangle {T}.
Global Arguments xy {T}.
Global Arguments width {T}.
Global Arguments height {T}.
Global Arguments facecolor {T}.
Global Arguments edgecolor {T}.
Global Arguments alpha {T}.

(** The checks [mpatches.Rectangle] runs on its styling arguments.  They
    are matplotlib code, absent from src/, and are taken as a parameter:
    [patch_check facecolor edgecolor alpha] is [Ok ()] when the constructor
    accepts the arguments, and otherwise the exception it raises
    (ValueError for an unknown colour or an opacity outside 0-1, TypeError
    for an opacity that is not a number). *)
Class PatchInit (T : Type) : Type :=
  patch_check : color → color → T → result unit.

(** [mpatches.Rectangle(xy, width, height, facecolor=, edgecolor=, alpha=)]:
    the patch is built only if the checks pass. *)
Definition Rectangle_init {T} {P : PatchInit T} (p : Z * Z) (w h : Z)
    (face edge : color) (a : T) : result (Rectangle T) :=
  _ ← patch_check face edge a;
  Ok (mkRectangle p w h face edge a).

(** One turn of the loop body of line 14: the index, the colour, the
    patch, and then the append. *)
Definition append_handle {T} {P : PatchInit T} (colors : list color) (lc : Z)
    (edge : color) (alpha : T) (i : Z) (handles : list (Rectangle T))
  : result (list (Rectangle T)) :=
  k ← mod_ i lc;
  c ← getitem colors k;
  patch ← Rectangle_init (0, 0) 1 1 c edge alpha;
  Ok (handles ++ [patch]).

Definition generate_handles {T} {P : PatchInit T} (labels : list string)
    (colors : list color) (edge : color) (alpha : T)
  : result (list (Rectangle T)) :=
  let lc := len colors in
  let handles := [] in
  for_in (range (len labels)) (append_handle colors lc edge alpha) handles.

(** The keyword defaults [edge='k', alpha=1]. *)
Definition default_edge : color := "k".
Definition default_alpha : Z := 1.

Definition generate_handles_default {P : PatchInit Z} (labels : list string)
    (colors : list color) : result (list (Rectangle Z)) :=
  generate_handles labels colors default_edge default_alpha.

End Legend.

(** ** Feature collections, reprojection and the spatial join
       (lines 27-41) *)

Module Geo.
Import Py.

(** A coordinate reference system, by its EPSG code ([epsg=2157]). *)
Definition CRS := Z.

Section Kernel.

(** The geometry kernel: polygons, the coordinate transform between two
    reference systems and the spatial predicate of the join.  They are
    library code working on floating-point coordinates and stay abstract. *)
Context {Geometry : Type}.
Variable transform : CRS → CRS → Geometry → Geometry.
Variable intersects : Geometry → Geometry → bool.

(** A record of a feature collection: a geometry and its attribute row. *)
Record Feature (A : Type) : Type := mkFeature {
  geometry : Geometry;
  attrs : A
}.
Global Arguments mkFeature {A}.
Global Arguments geometry {A}.
Global Arguments attrs {A}.

(** A feature collection: the records in order, and the reference system
    they share, if one is set. *)
Record GeoDataFrame (A : Type) : Type := mkGeoDataFrame {
  crs : option CRS;
  rows : list (Feature A)
}.
Global Arguments mkGeoDataFrame {A}.
Global Arguments crs {A}.
Global Arguments rows {A}.

Definition reproject {A} (src dst : CRS) (f : Feature A) : Feature A :=
  mkFeature (transform src dst (geometry f)) (attrs f).

(** Modelled from the spec: [GeoDataFrame.to_crs] is geopandas code, absent
    from src/.  Section 4.2: every geometry is transformed into the target
    reference system, attributes and record order are unchanged, a second
    application with the same target is a no-op, and an undefined source
    reference system is a Projection error. *)
Definition to_crs {A} (epsg : CRS) (df : GeoDataFrame A)
  : result (GeoDataFrame A) :=
  match crs df with
  | None => Raise ProjectionError
  | Some src =>
      if decide (src = epsg) then Ok df
      else Ok (mkGeoDataFrame (Some epsg) (reproject src epsg <$> rows df))
  end.

(** The right-hand records a left geometry matches, in right-hand order. *)
Definition matching {B} (g : Geometry) (right : list (Feature B))
  : list (Feature B) :=
  filter (λ c, intersects g (geometry c)) right.

(** The joined rows one left record gives: one per match, each with the
    left geometry and both attribute rows. *)
Definition joined_rows_of {A B} (right : list (Feature B)) (w : Feature A)
  : list (Feature (A * B)) :=
  (λ c, mkFeature (geometry w) (attrs w, attrs c)) <$> matching (geometry w) right.

Definition join_rows {A B} (left : list (Feature A)) (right : list (Feature B))
  : list (Feature (A * B)) :=
  left ≫= joined_rows_of right.

(** Modelled from the spec: [gpd.sjoin] is geopandas code, absent from src/.
    Section 4.3 with [how='inner']: left records without a match are
    dropped, a left record with several matches gives one row per match,
    rows follow left order and then right match order, the row keeps the
    left geometry, and inputs that do not share a reference system are a
    CRS-Mismatch error.  The two attribute rows are kept side by side, which
    is what the left and right suffixes tell apart. *)
Definition sjoin {A B} (left : GeoDataFrame A) (right : GeoDataFrame B)
  : result (GeoDataFrame (A * B)) :=
  if decide (crs left = crs right)
  then Ok (mkGeoDataFrame (crs left) (join_rows (rows left) (rows right)))
  else Raise CRSMismatchError.

(** The (left, right) pairs of records that match, out of all pairs. *)
Definition matching_pairs {A B} (left : list (Feature A))
    (right : list (Feature B)) : list (Feature A * Feature B) :=
  filter (λ p, intersects (geometry p.1) (geometry p.2)) (list_prod left right).

End Kernel.
End Geo.

(** ** The population aggregates (lines 44-48) *)

Module Agg.
Import Py Geo.

(** The columns of the two datasets the script reads. *)
Record WardAttrs : Type := mkWard {
  Ward : string;
  Population : Z
}.

Record CountyAttrs : Type := mkCounty {
  CountyName : string
}.

Section Columns.
Context {Geometry : Type}.

(** A row of the joined table and its columns. *)
Definition JoinRow : Type := @Feature Geometry (WardAttrs * CountyAttrs).

Definition col_Population (r : JoinRow) : Z := Population (attrs r).1.
Definition col_Ward (r : JoinRow) : string := Ward (attrs r).1.
Definition col_CountyName (r : JoinRow) : string := CountyName (attrs r).2.

(** Modelled from the spec: [Series.sum] is pandas code, absent from src/.
    Section 4.4: the sum of the column across all rows. *)
Definition sum (xs : list Z) : Z := foldl Z.add 0 xs.

(** Modelled from the spec: [groupby(keys)[column].sum()] is pandas code,
    absent from src/.  Section 4.4: a mapping from each distinct key value
    to the sum of the column over the rows sharing that value. *)
Definition groupby_sum {K} `{Countable K} (key : JoinRow → K)
    (column : JoinRow → Z) (table : list JoinRow) : gmap K Z :=
  foldl (λ m r, <[key r := default 0 (m !! key r) + column r]> m) ∅ table.

(** The sum over all values of a grouping. *)
Definition sum_values {K} `{Countable K} (m : gmap K Z) : Z :=
  map_fold (λ _ v acc, v + acc) 0 m.

(** [join['Population'].sum()] *)
Definition total (join : list JoinRow) : Z :=
  sum (col_Population <$> join).

(** [join.groupby(['CountyName'])['Population'].sum()] *)
Definition by_county (join : list JoinRow) : gmap string Z :=
  groupby_sum col_CountyName col_Population join.

(** [join.groupby(['CountyName', 'Ward'])['Population'].sum()] *)
Definition by_county_and_ward (join : list JoinRow) : gmap (string * string) Z :=
  groupby_sum (λ r, (col_CountyName r, col_Ward r)) col_Population join.

End Columns.
End Agg.

(** ** The script body *)

Module Script.
Import Py Legend Geo Agg.

(** Lines 32-33: the planar reference system both layers are brought to. *)
Definition target_epsg : CRS := 2157.

(** The three statistics of lines 44-48. *)
Record Statistics : Type := mkStatistics {
  stat_total : Z;
  stat_by_county : gmap string Z;
  stat_by_county_and_ward : gmap (string * string) Z
}.

(** Lines 32-48 on the two loaded layers: reproject both, join the wards
    (left) with the counties (right), and take the three aggregates. *)
Definition analysis {Geometry : Type}
    (transform : CRS → CRS → Geometry → Geometry)
    (intersects : Geometry → Geometry → bool)
    (counties : GeoDataFrame CountyAttrs) (wards : GeoDataFrame WardAttrs)
  : result Statistics :=
  counties ← to_crs transform target_epsg counties;
  wards ← to_crs transform target_epsg wards;
  join ← sjoin intersects wards counties;
  Ok (mkStatistics (total (rows join)) (by_county (rows join))
        (by_county_and_ward (rows join))).

(** Line 77: the styling of the county outline feature. *)
Record OutlineStyle : Type := mkOutlineStyle {
  outline_edgecolor : color;
  outline_facecolor : color
}.

Definition county_outlines : OutlineStyle := mkOutlineStyle "r" "none".

(** Line 81 *)
Definition county_handles {P : PatchInit Z} : result (list (Rectangle Z)) :=
  generate_handles [""] ["none"] "r" default_alpha.

(** The arguments of an [ax.legend] call. *)
Record LegendBox : Type := mkLegendBox {
  legend_handles : list (Rectangle Z);
  legend_labels : list string;
  legend_fontsize : Z;
  legend_loc : string;
  legend_framealpha : Z
}.

(** Line 84 *)
Definition legend {P : PatchInit Z} : result LegendBox :=
  handles ← county_handles;
  Ok (mkLegendBox handles ["County Boundaries"] 12 "upper left" 1).

End Script.

(** ** A small concrete kernel

    Axis-parallel boxes with integer corners stand in for polygons, so that
    the model can be run on concrete layers. *)

Module Sample.
Import Py Geo Agg.

Record Box : Type := mkBox {
  xmin : Z;
  ymin : Z;
  xmax : Z;
  ymax : Z
}.

(** Two boxes meet when their extents overlap on both axes. *)
Definition box_intersects (a b : Box) : bool :=
  (xmin a <=? xmax b) && (xmin b <=? xmax a)
  && (ymin a <=? ymax b) && (ymin b <=? ymax a).

(** A stand-in coordinate change: a shift by the difference of the codes. *)
Definition box_transform (src dst : CRS) (b : Box) : Box :=
  let d := dst - src in
  mkBox (xmin b + d) (ymin b + d) (xmax b + d) (ymax b + d).

(** One county holding two wards, a ward outside every county, and a ward
    that straddles two counties. *)
Definition county_X : Feature CountyAttrs := mkFeature (mkBox 0 0 10 10) (mkCounty "X").
Definition county_Y : Feature CountyAttrs := mkFeature (mkBox 20 0 30 10) (mkCounty "Y").
Definition ward_a : Feature WardAttrs := mkFeature (mkBox 1 1 4 4) (mkWard "a" 1000).
Definition ward_b : Feature WardAttrs := mkFeature (mkBox 5 5 9 9) (mkWard "b" 3000).
Definition ward_far : Feature WardAttrs := mkFeature (mkBox 50 50 60 60) (mkWard "far" 70).
Definition ward_both : Feature WardAttrs := mkFeature (mkBox 8 2 22 3) (mkWard "both" 500).

Definition counties : GeoDataFrame CountyAttrs :=
  mkGeoDataFrame (Some 29902) [county_X; county_Y].
Definition wards : GeoDataFrame WardAttrs :=
  mkGeoDataFrame (Some 29902) [ward_a; ward_far; ward_both; ward_b].

(** The end-to-end scenario of the specification: one county, two wards
    inside it. *)
Definition counties_one : GeoDataFrame CountyAttrs :=
  mkGeoDataFrame (Some 29902) [county_X].
Definition wards_two : GeoDataFrame WardAttrs :=
  mkGeoDataFrame (Some 29902) [ward_a; ward_b].

(** A stand-in for the checks of the patch constructor, for running the
    model: it accepts the colour names listed and an integer opacity of 0
    or 1, and answers ValueError to anything else, checking the edge
    colour, the fill colour and the opacity in this order.  matplotlib
    accepts more colours than these; it rejects ['notacolor'] and an
    opacity of 2 as this stand-in does. *)
Definition known_colors : list Legend.color :=
  ["none"; "k"; "r"; "red"; "blue"; "green"].

Definition check_color (c : Legend.color) : result unit :=
  if existsb (String.eqb c) known_colors then Ok () else Raise ValueError.

Definition check_alpha (a : Z) : result unit :=
  if (0 <=? a) && (a <=? 1) then Ok () else Raise ValueError.

Definition patch_init : Legend.PatchInit Z := λ face edge a,
  _ ← check_color edge;
  _ ← check_color face;
  check_alpha a.

End Sample.

(** * Properties of the legend handle generator *)

Section LegendFacts.
Import Py Legend.
Context {T : Type} {P : PatchInit T}.
Implicit Types (labels : list string) (colors : list color) (edge : color).
Implicit Types (alpha : T) (handles : list (Rectangle T)).

(** The handle the loop appends at index [i]: filled with the colour found
    at [i mod len(colors)], which the constructor accepted. *)
Definition handle_at colors edge alpha (i : nat) (h : Rectangle T) : Prop :=
  ∃ c, colors !! (i `mod` length colors)%nat = Some c
       ∧ patch_check c edge alpha = Ok ()
       ∧ h = mkRectangle (0, 0) 1 1 c edge alpha.

Lemma len_nonzero {A} (l : list A) : l ≠ [] → (len l =? 0) = false.
Proof.
  intros Hl. apply Z.eqb_neq. unfold len.
  destruct l; [done | simpl; lia].
Qed.

Lemma getitem_nat {A} (l : list A) (i : nat) (a : A) :
  l !! i = Some a → getitem l (Z.of_nat i) = Ok a.
Proof.
  intros Hi. unfold getitem.
  replace (Z.of_nat i <? 0) with false by (symmetry; apply Z.ltb_ge; lia).
  cbn zeta.
  replace (Z.of_nat i <? 0) with false by (symmetry; apply Z.ltb_ge; lia).
  by rewrite Nat2Z.id, Hi.
Qed.

(** One turn of the loop with a non-empty colour list: the colour is found,
    and what is left is the constructor call. *)
Lemma append_handle_step colors edge alpha (i : nat) handles :
  colors ≠ [] →
  ∃ c, colors !! (i `mod` length colors)%nat = Some c
       ∧ append_handle colors (len colors) edge alpha (Z.of_nat i) handles
         = (_ ← patch_check c edge alpha;
            Ok (handles ++ [mkRectangle (0, 0) 1 1 c edge alpha])).
Proof.
  intros Hne.
  assert (Hlen : (0 < length colors)%nat) by (destruct colors; [done | simpl; lia]).
  destruct (lookup_lt_is_Some_2 colors (i `mod` length colors)%nat) as [c Hc].
  { apply Nat.mod_upper_bound. lia. }
  exists c. split; [done |].
  unfold append_handle, mod_. rewrite (len_nonzero _ Hne).
  unfold len. rewrite <- Nat2Z.inj_mod.
  cbn. rewrite (getitem_nat _ _ _ Hc). cbn. unfold Rectangle_init.
  by destruct (patch_check c edge alpha) as [[] |].
Qed.

(** The whole loop from index [s] on, with a non-empty colour list: either
    it appends one handle per index, or the constructor refused one of the
    colours and its exception ends the loop. *)
Lemma for_in_append_outcome colors edge alpha (n s : nat) handles :
  colors ≠ [] →
  (∃ hs, Forall2 (handle_at colors edge alpha) (seq s n) hs
         ∧ for_in (Z.of_nat <$> seq s n)
             (append_handle colors (len colors) edge alpha) handles
           = Ok (handles ++ hs))
  ∨ (∃ e c, c ∈ colors ∧ patch_check c edge alpha = Raise e
            ∧ for_in (Z.of_nat <$> seq s n)
                (append_handle colors (len colors) edge alpha) handles
              = Raise e).
Proof.
  intros Hne. revert s handles.
  induction n as [| n IH]; intros s handles.
  - left. exists []. split; [constructor |]. by rewrite app_nil_r.
  - destruct (append_handle_step colors edge alpha s handles Hne)
      as (c & Hc & Hstep).
    cbn [seq fmap list_fmap for_in]. rewrite Hstep.
    destruct (patch_check c edge alpha) as [[] | e] eqn:Hcheck; cbn.
    + destruct (IH (S s) (handles ++ [mkRectangle (0, 0) 1 1 c edge alpha]))
        as [(hs & Hhs & Hloop) | (e & c' & Hin & Hbad & Hloop)].
      * left. exists (mkRectangle (0, 0) 1 1 c edge alpha :: hs). split.
        -- constructor; [by exists c | done].
        -- rewrite Hloop. by rewrite <- app_assoc.
      * right. by exists e, c'.
    + right. exists e, c. split; [by eapply list_elem_of_lookup_2 | done].
Qed.

(** When the constructor accepts every colour, the loop runs to its end. *)
Lemma for_in_append_ok colors edge alpha (n s : nat) handles :
  colors ≠ [] →
  Forall (λ c, patch_check c edge alpha = Ok ()) colors →
  ∃ hs, Forall2 (handle_at colors edge alpha) (seq s n) hs
        ∧ for_in (Z.of_nat <$> seq s n)
            (append_handle colors (len colors) edge alpha) handles
          = Ok (handles ++ hs).
Proof.
  intros Hne Hok.
  destruct (for_in_append_outcome colors edge alpha n s handles Hne)
    as [Hrun | (e & c & Hin & Hbad & _)]; [done |].
  rewrite Forall_forall in Hok. rewrite (Hok c Hin) in Hbad. discriminate.
Qed.

(** With no colours the first turn of the loop raises. *)
Lemma append_handle_no_colors edge alpha (i : Z) handles :
  append_handle [] (len (@nil color)) edge alpha i handles
  = Raise ZeroDivisionError.
Proof. reflexivity. Qed.

(** Every handle the loop adds carries the [edge] and [alpha] arguments. *)
Lemma for_in_append_style colors (lc : Z) edge alpha (xs : list Z) handles hs :
  for_in xs (append_handle colors lc edge alpha) handles = Ok hs →
  Forall (λ h, edgecolor h = edge ∧ Legend.alpha h = alpha) handles →
  Forall (λ h, edgecolor h = edge ∧ Legend.alpha h = alpha) hs.
Proof.
  revert handles. induction xs as [| x xs IH]; intros handles Hrun Hacc.
  - cbn in Hrun. by inversion Hrun; subst.
  - cbn in Hrun. unfold append_handle in Hrun at 1.
    destruct (mod_ x lc) as [k |]; [| discriminate]. cbn in Hrun.
    destruct (getitem colors k) as [c |]; [| discriminate]. cbn in Hrun.
    unfold Rectangle_init in Hrun.
    destruct (patch_check c edge alpha) as [[] |]; [| discriminate].
    cbn in Hrun.
    apply IH in Hrun; [done |].
    apply Forall_app. split; [done |]. by repeat constructor.
Qed.

End LegendFacts.

Section LegendClaims.
Import Py Legend.

(** C1 as stated fails: the patch constructor refuses a string that names
    no colour, so a non-empty colour list does not make the call return. *)
Lemma generate_handles_invalid_color :
  ¬ (∀ (P : PatchInit Z) (labels : list string) (colors : list color)
       (edge : color) (alpha : Z),
       colors ≠ [] →
       ∃ hs, generate_handles labels colors edge alpha = Ok hs
             ∧ length hs = length labels
             ∧ ∀ i, (i < length labels)%nat →
                 ∃ h, hs !! i = Some h
                      ∧ colors !! (i `mod` length colors)%nat
                        = Some (facecolor h)).
Proof.
  intros Hall.
  destruct (Hall Sample.patch_init ["a"] ["notacolor"] "k" 1) as (hs & Hrun & _);
    [discriminate |].
  vm_compute in Hrun. discriminate Hrun.
Qed.

(** The failing call, run on the code. *)
Example generate_handles_notacolor :
  generate_handles (P := Sample.patch_init) ["a"] ["notacolor"] "k" 1
  = Raise ValueError.
Proof. reflexivity. Qed.

(** C1, amended: with a non-empty colour list whose colours the patch
    constructor accepts, together with the edge colour and the opacity,
    [generate_handles] returns exactly [len(labels)] handles and the [i]-th
    one is filled with [colors[i mod len(colors)]], so the colours cycle. *)
Theorem generate_handles_cycles {T} {P : PatchInit T} (labels : list string)
    (colors : list color) (edge : color) (alpha : T) :
  colors ≠ [] →
  Forall (λ c, patch_check c edge alpha = Ok ()) colors →
  ∃ hs, generate_handles labels colors edge alpha = Ok hs
        ∧ length hs = length labels
        ∧ ∀ i, (i < length labels)%nat →
            ∃ h, hs !! i = Some h
                 ∧ colors !! (i `mod` length colors)%nat = Some (facecolor h).
Proof.
  intros Hne Hvalid. unfold generate_handles, range, len. rewrite Nat2Z.id.
  destruct (for_in_append_ok colors edge alpha (length labels) 0 [] Hne Hvalid)
    as (hs & Hall & Hrun).
  exists hs. split; [exact Hrun |].
  pose proof (Forall2_length _ _ _ Hall) as Hlen. rewrite length_seq in Hlen.
  split; [done |]. intros i Hi.
  destruct (lookup_lt_is_Some_2 hs i) as [h Hh]; [lia |].
  exists h. split; [done |].
  assert (Hseq : seq 0 (length labels) !! i = Some i)
    by (rewrite lookup_seq; auto).
  destruct (Forall2_lookup_lr _ _ _ _ _ _ Hall Hseq Hh) as (c & Hc & _ & ->).
  exact Hc.
Qed.

Lemma generate_handles_cycles_witness :
  ∃ hs, generate_handles (P := Sample.patch_init)
          ["a"; "b"; "c"] ["red"; "blue"] "k" 1 = Ok hs
        ∧ length hs = 3%nat
        ∧ ∀ i, (i < 3)%nat →
            ∃ h, hs !! i = Some h
                 ∧ ["red"; "blue"] !! (i `mod` 2)%nat = Some (facecolor h).
Proof.
  apply (generate_handles_cycles (P := Sample.patch_init)
           ["a"; "b"; "c"] ["red"; "blue"] "k" 1).
  - discriminate.
  - repeat constructor.
Defined.

(** The colour-cycling scenario of the specification, run on the code. *)
Example generate_handles_red_blue_red :
  generate_handles_default (P := Sample.patch_init)
    ["a"; "b"; "c"] ["red"; "blue"]
  = Ok [mkRectangle (0, 0) 1 1 "red" "k" 1;
        mkRectangle (0, 0) 1 1 "blue" "k" 1;
        mkRectangle (0, 0) 1 1 "red" "k" 1].
Proof. reflexivity. Qed.

(** C2 as stated fails: with no labels the loop body never runs, and the
    empty colour list goes unnoticed. *)
Lemma empty_colors_not_always_error :
  ¬ (∀ labels : list string,
       ∃ e, generate_handles (P := Sample.patch_init) labels []
              default_edge default_alpha = Raise e).
Proof.
  intros Hall. destruct (Hall []) as [e He]. discriminate He.
Qed.

(** C2, amended: with at least one label, an empty colour list makes
    [generate_handles] raise ZeroDivisionError instead of returning. *)
Theorem generate_handles_empty_colors {T} {P : PatchInit T}
    (labels : list string) (edge : color) (alpha : T) :
  labels ≠ [] →
  generate_handles labels [] edge alpha = Raise ZeroDivisionError.
Proof.
  intros Hne. destruct labels as [| l labels]; [done |].
  unfold generate_handles, range, len. rewrite Nat2Z.id. reflexivity.
Qed.

Lemma generate_handles_empty_colors_witness :
  generate_handles (P := Sample.patch_init) [""] [] "r" 1
  = Raise ZeroDivisionError.
Proof.
  apply (generate_handles_empty_colors (P := Sample.patch_init) [""] "r" 1).
  discriminate.
Defined.

(** C7: whenever [generate_handles] returns, every handle has the edge
    colour and the opacity passed in; with the keyword defaults these are
    black and fully opaque. *)
Theorem generate_handles_shared_style {T} {P : PatchInit T}
    {P0 : PatchInit Z} (labels : list string)
    (colors : list color) (edge : color) (alpha : T)
    (hs : list (Rectangle T)) :
  generate_handles labels colors edge alpha = Ok hs →
  Forall (λ h, edgecolor h = edge ∧ Legend.alpha h = alpha) hs
  ∧ ∀ hs0, generate_handles_default labels colors = Ok hs0 →
      Forall (λ h, edgecolor h = "k" ∧ Legend.alpha h = 1) hs0.
Proof.
  intros Hrun. split.
  - eapply for_in_append_style; [exact Hrun | constructor].
  - intros hs0 Hrun0.
    eapply (for_in_append_style (T := Z)); [exact Hrun0 | constructor].
Qed.

Lemma generate_handles_shared_style_witness :
  Forall (λ h, edgecolor h = "r" ∧ Legend.alpha h = 1)
    [mkRectangle (0, 0) 1 1 "none" "r" 1]
  ∧ ∀ hs0, generate_handles_default (P := Sample.patch_init) [""] ["none"]
           = Ok hs0 →
      Forall (λ h, edgecolor h = "k" ∧ Legend.alpha h = 1) hs0.
Proof.
  apply (generate_handles_shared_style (P := Sample.patch_init)
           (P0 := Sample.patch_init) [""] ["none"] "r" 1
           [mkRectangle (0, 0) 1 1 "none" "r" 1]).
  reflexivity.
Defined.

(** C9: with no labels [generate_handles] returns the empty list, whatever
    the colour list is, the empty one included. *)
Theorem generate_handles_no_labels {T} {P : PatchInit T}
    (colors : list color) (edge : color) (alpha : T) :
  generate_handles [] colors edge alpha = Ok [].
Proof.
  unfold generate_handles.
  change (range (len (@nil string))) with (@nil Z).
  reflexivity.
Qed.

(** C10: the result depends on the labels only through their number: two
    label lists of the same length give the same outcome, hence handles
    with the same fill colours, edge colours and opacities. *)
Theorem generate_handles_label_blind {T} {P : PatchInit T}
    (labels1 labels2 : list string)
    (colors : list color) (edge : color) (alpha : T) :
  length labels1 = length labels2 →
  generate_handles labels1 colors edge alpha
  = generate_handles labels2 colors edge alpha.
Proof.
  intros Hlen. unfold generate_handles, len. by rewrite Hlen.
Qed.

Lemma generate_handles_label_blind_witness :
  generate_handles (P := Sample.patch_init) ["Antrim"; "Down"] ["red"] "k" 1
  = generate_handles (P := Sample.patch_init)
      ["x"; "a longer label"] ["red"] "k" 1.
Proof.
  apply (generate_handles_label_blind (P := Sample.patch_init)
           ["Antrim"; "Down"] ["x"; "a longer label"] ["red"] "k" 1).
  reflexivity.
Defined.

End LegendClaims.


(** * Properties of reprojection and of the spatial join *)

Section GeoFacts.
Import Py Geo.
Context {Geometry : Type}.
Variable transform : CRS → CRS → Geometry → Geometry.
Variable intersects : Geometry → Geometry → bool.

Lemma reproject_attrs {A} (src dst : CRS) (fs : list (@Feature Geometry A)) :
  attrs <$> (reproject transform src dst <$> fs) = attrs <$> fs.
Proof.
  induction fs as [| f fs IH]; [done |]. cbn. by f_equal.
Qed.

(** On a collection whose reference system is defined, reprojection
    returns a collection tagged with the target. *)
Lemma to_crs_defined {A} (epsg src : CRS) (df : @GeoDataFrame Geometry A) :
  crs df = Some src →
  ∃ df', to_crs transform epsg df = Ok df' ∧ crs df' = Some epsg.
Proof.
  intros Hcrs. unfold to_crs. rewrite Hcrs.
  destruct (decide (src = epsg)) as [-> | Hne]; eauto.
Qed.

(** Reprojecting the result of a reprojection to the same target again
    returns it as it is. *)
Lemma to_crs_twice {A} (epsg : CRS) (df df' : @GeoDataFrame Geometry A) :
  to_crs transform epsg df = Ok df' →
  to_crs transform epsg df' = Ok df'.
Proof.
  unfold to_crs. destruct (crs df) as [src |] eqn:Hsrc; [| discriminate].
  destruct (decide (src = epsg)) as [-> | Hne]; intros [= <-].
  - rewrite Hsrc. by rewrite decide_True.
  - cbn. by rewrite decide_True.
Qed.

(** The rows one left record gives are as many as its matches. *)
Lemma joined_rows_of_length {A B} (right : list (@Feature Geometry B))
    (w : @Feature Geometry A) :
  length (joined_rows_of intersects right w)
  = length (matching intersects (geometry w) right).
Proof. unfold joined_rows_of. by rewrite length_fmap. Qed.

Lemma joined_rows_of_geometry {A B} (right : list (@Feature Geometry B))
    (w : @Feature Geometry A) :
  Forall (λ r, geometry r = geometry w ∧ (attrs r).1 = attrs w)
    (joined_rows_of intersects right w).
Proof.
  unfold joined_rows_of. apply Forall_fmap, Forall_forall. by intros c _.
Qed.

Lemma join_rows_cons {A B} (w : @Feature Geometry A) left
    (right : list (@Feature Geometry B)) :
  join_rows intersects (w :: left) right
  = joined_rows_of intersects right w ++ join_rows intersects left right.
Proof. reflexivity. Qed.

Lemma join_rows_app {A B} (l1 l2 : list (@Feature Geometry A))
    (right : list (@Feature Geometry B)) :
  join_rows intersects (l1 ++ l2) right
  = join_rows intersects l1 right ++ join_rows intersects l2 right.
Proof. unfold join_rows. apply bind_app. Qed.

(** The pairs a single left record takes part in. *)
Lemma matching_pairs_cons {A B} (w : @Feature Geometry A) left
    (right : list (@Feature Geometry B)) :
  matching_pairs intersects (w :: left) right
  = (pair w <$> matching intersects (geometry w) right)
    ++ matching_pairs intersects left right.
Proof.
  unfold matching_pairs. cbn [list_prod]. rewrite filter_app. f_equal.
  unfold matching. induction right as [| c right IH]; [done |].
  cbn [map]. rewrite !filter_cons. cbn.
  destruct (intersects (geometry w) (geometry c)); cbn; by rewrite IH.
Qed.

Lemma join_rows_length {A B} (left : list (@Feature Geometry A))
    (right : list (@Feature Geometry B)) :
  length (join_rows intersects left right)
  = length (matching_pairs intersects left right).
Proof.
  induction left as [| w left IH]; [done |].
  rewrite join_rows_cons, matching_pairs_cons, !length_app, IH.
  by rewrite joined_rows_of_length, length_fmap.
Qed.

End GeoFacts.

Section GeoClaims.
Import Py Geo.

(** C5: reprojection to a fixed target is idempotent: a collection that is
    already in the target reference system comes back as it is, with the
    same geometries and the same number of records. *)
Theorem to_crs_idempotent {Geometry A : Type}
    (transform : CRS → CRS → Geometry → Geometry) (epsg : CRS)
    (df : @GeoDataFrame Geometry A) :
  crs df = Some epsg →
  ∃ df', to_crs transform epsg df = Ok df'
         ∧ geometry <$> rows df' = geometry <$> rows df
         ∧ length (rows df') = length (rows df)
         ∧ df' = df.
Proof.
  intros Hcrs. exists df. unfold to_crs. rewrite Hcrs.
  by rewrite decide_True.
Qed.

Lemma to_crs_idempotent_witness :
  ∃ df', to_crs Sample.box_transform 2157
           (mkGeoDataFrame (Some 2157) [Sample.ward_a; Sample.ward_b]) = Ok df'
         ∧ geometry <$> rows df' = geometry <$> [Sample.ward_a; Sample.ward_b]
         ∧ length (rows df') = 2%nat
         ∧ df' = mkGeoDataFrame (Some 2157) [Sample.ward_a; Sample.ward_b].
Proof.
  apply (to_crs_idempotent Sample.box_transform 2157
           (mkGeoDataFrame (Some 2157) [Sample.ward_a; Sample.ward_b])).
  reflexivity.
Defined.

(** C6: reprojecting a collection whose reference system is defined changes
    only the geometries and the reference system tag: the attribute rows,
    their order and the number of records stay as they were. *)
Theorem to_crs_frame {Geometry A : Type}
    (transform : CRS → CRS → Geometry → Geometry) (epsg src : CRS)
    (df : @GeoDataFrame Geometry A) :
  crs df = Some src →
  ∃ df', to_crs transform epsg df = Ok df'
         ∧ crs df' = Some epsg
         ∧ attrs <$> rows df' = attrs <$> rows df
         ∧ length (rows df') = length (rows df)
         ∧ ∀ i f, rows df !! i = Some f →
             ∃ f', rows df' !! i = Some f' ∧ attrs f' = attrs f.
Proof.
  intros Hcrs. unfold to_crs. rewrite Hcrs.
  destruct (decide (src = epsg)) as [-> | Hne].
  - exists df. repeat split; try done. intros i f Hf. by exists f.
  - eexists. split; [reflexivity |]. cbn.
    split; [done |]. split; [apply reproject_attrs |].
    split; [by rewrite length_fmap |].
    intros i f Hf. exists (reproject transform src epsg f).
    by rewrite list_lookup_fmap, Hf.
Qed.

Lemma to_crs_frame_witness :
  ∃ df', to_crs Sample.box_transform 2157 Sample.wards = Ok df'
         ∧ crs df' = Some 2157
         ∧ attrs <$> rows df' = attrs <$> rows Sample.wards
         ∧ length (rows df') = length (rows Sample.wards)
         ∧ ∀ i f, rows Sample.wards !! i = Some f →
             ∃ f', rows df' !! i = Some f' ∧ attrs f' = attrs f.
Proof.
  apply (to_crs_frame Sample.box_transform 2157 29902 Sample.wards).
  reflexivity.
Defined.

(** C4: the join of the wards (left) with the counties (right) is an inner
    join.  It has as many rows as there are matching (ward, county) pairs;
    each ward contributes one block of rows, as many as the counties it
    matches, none when it matches none, and every row of the block carries
    the ward's geometry. *)
Theorem sjoin_inner {Geometry A B : Type}
    (intersects : Geometry → Geometry → bool)
    (wards : @GeoDataFrame Geometry A) (counties : @GeoDataFrame Geometry B) :
  crs wards = crs counties →
  ∃ join, sjoin intersects wards counties = Ok join
    ∧ length (rows join)
      = length (matching_pairs intersects (rows wards) (rows counties))
    ∧ (∀ before w after, rows wards = before ++ w :: after →
         rows join
         = join_rows intersects before (rows counties)
           ++ joined_rows_of intersects (rows counties) w
           ++ join_rows intersects after (rows counties))
    ∧ ∀ (w : Feature A) (k : nat),
        length (matching intersects (geometry w) (rows counties)) = k →
        length (joined_rows_of intersects (rows counties) w) = k
        ∧ (k = 0%nat → joined_rows_of intersects (rows counties) w = [])
        ∧ Forall (λ r, geometry r = geometry w ∧ (attrs r).1 = attrs w)
            (joined_rows_of intersects (rows counties) w).
Proof.
  intros Hcrs. unfold sjoin. rewrite decide_True by done.
  eexists. split; [reflexivity |]. cbn [rows].
  split; [apply join_rows_length |]. split.
  - intros before w after ->. by rewrite join_rows_app, join_rows_cons.
  - intros w k Hk. rewrite joined_rows_of_length. split; [done |].
    split; [| apply joined_rows_of_geometry].
    intros ->. apply nil_length_inv. by rewrite joined_rows_of_length.
Qed.

Lemma sjoin_inner_witness :
  ∃ join, sjoin Sample.box_intersects Sample.wards Sample.counties = Ok join
    ∧ length (rows join)
      = length (matching_pairs Sample.box_intersects (rows Sample.wards)
                  (rows Sample.counties))
    ∧ (∀ before w after, rows Sample.wards = before ++ w :: after →
         rows join
         = join_rows Sample.box_intersects before (rows Sample.counties)
           ++ joined_rows_of Sample.box_intersects (rows Sample.counties) w
           ++ join_rows Sample.box_intersects after (rows Sample.counties))
    ∧ ∀ (w : Feature Agg.WardAttrs) (k : nat),
        length (matching Sample.box_intersects (geometry w)
                  (rows Sample.counties)) = k →
        length (joined_rows_of Sample.box_intersects (rows Sample.counties) w) = k
        ∧ (k = 0%nat →
           joined_rows_of Sample.box_intersects (rows Sample.counties) w = [])
        ∧ Forall (λ r, geometry r = geometry w ∧ (attrs r).1 = attrs w)
            (joined_rows_of Sample.box_intersects (rows Sample.counties) w).
Proof.
  apply (sjoin_inner Sample.box_intersects Sample.wards Sample.counties).
  reflexivity.
Defined.

(** The sample layers: the ward outside every county is dropped, the ward
    across two counties appears twice, and the rows keep ward order. *)
Example sjoin_sample :
  sjoin Sample.box_intersects Sample.wards Sample.counties
  = Ok (mkGeoDataFrame (Some 29902)
          [mkFeature (geometry Sample.ward_a) (attrs Sample.ward_a, Agg.mkCounty "X");
           mkFeature (geometry Sample.ward_both) (attrs Sample.ward_both, Agg.mkCounty "X");
           mkFeature (geometry Sample.ward_both) (attrs Sample.ward_both, Agg.mkCounty "Y");
           mkFeature (geometry Sample.ward_b) (attrs Sample.ward_b, Agg.mkCounty "X")]).
Proof. reflexivity. Qed.

End GeoClaims.

(** * Properties of the aggregates *)

Section AggFacts.
Import Py Geo Agg.
Context {Geometry : Type} {K : Type} `{Countable K}.
Implicit Types (m : gmap K Z) (table : list (@JoinRow Geometry)).

Lemma sum_values_empty : sum_values (∅ : gmap K Z) = 0.
Proof. apply map_fold_empty. Qed.

Lemma sum_values_insert_fresh m (k : K) (v : Z) :
  m !! k = None → sum_values (<[k := v]> m) = v + sum_values m.
Proof.
  intros Hk. unfold sum_values.
  rewrite map_fold_insert_L; [done | | done].
  intros. lia.
Qed.

(** Adding [v] to the group of [k], whether the group exists or not, adds
    [v] to the sum over all groups. *)
Lemma sum_values_add m (k : K) (v : Z) :
  sum_values (<[k := default 0 (m !! k) + v]> m) = sum_values m + v.
Proof.
  destruct (m !! k) as [x |] eqn:Hk; cbn.
  - rewrite <- (insert_delete_eq m k (x + v)).
    rewrite sum_values_insert_fresh by apply lookup_delete_eq.
    rewrite <- (insert_delete_id m k x Hk) at 2.
    rewrite sum_values_insert_fresh by apply lookup_delete_eq.
    lia.
  - rewrite sum_values_insert_fresh by done. lia.
Qed.

Lemma sum_values_foldl (key : @JoinRow Geometry → K)
    (column : @JoinRow Geometry → Z) table m :
  sum_values
    (foldl (λ m r, <[key r := default 0 (m !! key r) + column r]> m) m table)
  = foldl Z.add (sum_values m) (column <$> table).
Proof.
  revert m. induction table as [| r table IH]; intros m; [done |].
  cbn. by rewrite IH, sum_values_add.
Qed.

(** The values of a grouping add up to the sum of the whole column. *)
Lemma sum_values_groupby_sum (key : @JoinRow Geometry → K)
    (column : @JoinRow Geometry → Z) table :
  sum_values (groupby_sum key column table) = sum (column <$> table).
Proof.
  unfold groupby_sum, sum. by rewrite sum_values_foldl, sum_values_empty.
Qed.

Lemma sum_snoc (xs : list Z) (x : Z) : sum (xs ++ [x]) = sum xs + x.
Proof. unfold sum. by rewrite foldl_app. Qed.

Lemma groupby_sum_snoc (key : @JoinRow Geometry → K)
    (column : @JoinRow Geometry → Z) table (r : @JoinRow Geometry) :
  groupby_sum key column (table ++ [r])
  = <[key r := default 0 (groupby_sum key column table !! key r) + column r]>
      (groupby_sum key column table).
Proof. unfold groupby_sum. by rewrite foldl_app. Qed.

(** What a grouping holds at a key: nothing when no row has the key, and
    otherwise the sum of the column over the rows that have it. *)
Lemma groupby_sum_lookup (key : @JoinRow Geometry → K)
    (column : @JoinRow Geometry → Z) table (k : K) :
  groupby_sum key column table !! k
  = match filter (λ r, key r = k) table with
    | [] => None
    | group => Some (sum (column <$> group))
    end.
Proof.
  induction table as [| r table IH] using rev_ind; [done |].
  rewrite groupby_sum_snoc, filter_app, filter_cons, filter_nil.
  destruct (decide (key r = k)) as [<- | Hne].
  - rewrite lookup_insert_eq, IH.
    destruct (filter (λ r0, key r0 = key r) table) as [| r0 rs].
    + cbn. done.
    + change ((r0 :: rs) ++ [r]) with (r0 :: (rs ++ [r])). cbv iota.
      f_equal. change (r0 :: (rs ++ [r])) with ((r0 :: rs) ++ [r]).
      rewrite fmap_app. change (column <$> [r]) with [column r].
      by rewrite sum_snoc.
  - rewrite lookup_insert_ne by done. rewrite IH, app_nil_r. done.
Qed.

End AggFacts.

Section AggClaims.
Import Py Geo Agg.

(** C3: the three aggregates of the joined table agree: the total of the
    Population column is the sum over the values of the grouping by
    CountyName, which is the sum over the values of the grouping by
    (CountyName, Ward). *)
Theorem aggregates_consistent {Geometry : Type}
    (join : list (@JoinRow Geometry)) :
  total join = sum_values (by_county join)
  ∧ sum_values (by_county join) = sum_values (by_county_and_ward join).
Proof.
  unfold total, by_county, by_county_and_ward.
  by rewrite !sum_values_groupby_sum.
Qed.

End AggClaims.

(** * Properties of the script body *)

Section ScriptClaims.
Import Py Legend Geo Agg Script.

(** Lines 32-48 run to the end on layers whose reference systems are
    defined, and the statistics they compute agree with one another. *)
Lemma analysis_ok {Geometry : Type}
    (transform : CRS → CRS → Geometry → Geometry)
    (intersects : Geometry → Geometry → bool)
    (counties : GeoDataFrame CountyAttrs) (wards : GeoDataFrame WardAttrs) :
  is_Some (crs counties) → is_Some (crs wards) →
  ∃ st, analysis transform intersects counties wards = Ok st
        ∧ stat_total st = sum_values (stat_by_county st)
        ∧ stat_total st = sum_values (stat_by_county_and_ward st).
Proof.
  intros [cc Hcc] [cw Hcw].
  destruct (to_crs_defined transform target_epsg cc counties Hcc)
    as (counties' & Hc & Hcrs_c).
  destruct (to_crs_defined transform target_epsg cw wards Hcw)
    as (wards' & Hw & Hcrs_w).
  set (join := join_rows intersects (rows wards') (rows counties')).
  exists (mkStatistics (total join) (by_county join) (by_county_and_ward join)).
  split.
  - unfold analysis. rewrite Hc. cbn. rewrite Hw. cbn.
    unfold sjoin. rewrite decide_True by congruence. reflexivity.
  - cbn [stat_total stat_by_county stat_by_county_and_ward].
    unfold total, by_county, by_county_and_ward.
    by rewrite !sum_values_groupby_sum.
Qed.

(** The end-to-end scenario of the specification: two wards of 1000 and
    3000 residents inside the one county X. *)
Example analysis_two_wards :
  analysis Sample.box_transform Sample.box_intersects
    Sample.counties_one Sample.wards_two
  = Ok (mkStatistics 4000 {[ "X" := 4000 ]}
          (<[("X", "b") := 3000]> {[ ("X", "a") := 1000 ]})).
Proof. vm_compute. reflexivity. Qed.

(** C8: the renderer builds exactly one legend handle with
    [generate_handles], without fill and in the red of the county
    outlines, and attaches a legend labelled "County Boundaries" at the
    upper left, with font size 12 and a fully opaque frame.  The patch
    constructor is taken to accept the script's own arguments: no fill, a
    red edge and the default opacity. *)
Theorem legend_single_county_handle {P : PatchInit Z} :
  patch_check "none" "r" default_alpha = Ok () →
  ∃ h, county_handles = Ok [h]
       ∧ facecolor h = "none"
       ∧ edgecolor h = "r"
       ∧ edgecolor h = outline_edgecolor county_outlines
       ∧ legend
         = Ok (mkLegendBox [h] ["County Boundaries"] 12 "upper left" 1).
Proof.
  intros Hcheck.
  destruct (for_in_append_ok ["none"] "r" default_alpha 1 0 [])
    as (hs & Hall & Hloop); [done | by repeat constructor |].
  assert (Hrun : county_handles = Ok hs) by exact Hloop.
  apply Forall2_cons_inv_l in Hall as (h & hs' & (c & Hc & _ & ->) & Hnil & ->).
  apply Forall2_nil_inv_l in Hnil as ->.
  injection Hc as <-.
  exists (mkRectangle (0, 0) 1 1 "none" "r" default_alpha).
  repeat split; [done |]. unfold legend. by rewrite Hrun.
Qed.

Lemma legend_single_county_handle_witness :
  ∃ h, county_handles (P := Sample.patch_init) = Ok [h]
       ∧ facecolor h = "none"
       ∧ edgecolor h = "r"
       ∧ edgecolor h = outline_edgecolor county_outlines
       ∧ legend (P := Sample.patch_init)
         = Ok (mkLegendBox [h] ["County Boundaries"] 12 "upper left" 1).
Proof.
  apply (legend_single_county_handle (P := Sample.patch_init)).
  reflexivity.
Defined.

End ScriptClaims.

(** * Further properties of the legend handle generator *)

Section LegendMoreFacts.
Import Py Legend.
Context {T : Type} {P : PatchInit T}.
Implicit Types (labels : list string) (colors : list color) (edge : color).
Implicit Types (alpha : T) (handles hs : list (Rectangle T)).

(** The outcome of a call, over the cases of empty and non-empty
    arguments and of what the constructor answers. *)
Lemma generate_handles_cases labels colors edge alpha :
  (labels = [] ∧ generate_handles labels colors edge alpha = Ok [])
  ∨ (labels ≠ [] ∧ colors = []
     ∧ generate_handles labels colors edge alpha = Raise ZeroDivisionError)
  ∨ (colors ≠ [] ∧
     ∃ hs, generate_handles labels colors edge alpha = Ok hs
           ∧ Forall2 (handle_at colors edge alpha) (seq 0 (length labels)) hs)
  ∨ (colors ≠ [] ∧
     ∃ e c, c ∈ colors ∧ patch_check c edge alpha = Raise e
            ∧ generate_handles labels colors edge alpha = Raise e).
Proof.
  destruct colors as [| c0 colors].
  - destruct labels as [| l labels]; [by left |].
    right; left. repeat split; try done.
    unfold generate_handles, range, len. by rewrite Nat2Z.id.
  - right; right.
    destruct (for_in_append_outcome (c0 :: colors) edge alpha
                (length labels) 0 []) as [(hs & Hall & Hrun) | Hbad]; [done | |].
    + left. split; [done |]. exists hs. split; [| done].
      unfold generate_handles, range, len. by rewrite Nat2Z.id.
    + right. split; [done |]. destruct Hbad as (e & c & Hin & Hc & Hrun).
      exists e, c. repeat split; try done.
      unfold generate_handles, range, len. by rewrite Nat2Z.id.
Qed.

(** Whenever the call returns, the handle at each index is the one the loop
    body builds there. *)
Lemma generate_handles_ok_inv labels colors edge alpha hs :
  generate_handles labels colors edge alpha = Ok hs →
  Forall2 (handle_at colors edge alpha) (seq 0 (length labels)) hs.
Proof.
  intros Hrun.
  destruct (generate_handles_cases labels colors edge alpha)
    as [[-> Hok] | [(_ & _ & Hraise) | [(_ & hs' & Hok & Hall)
                                       | (_ & e & c & _ & _ & Hraise)]]].
  - rewrite Hok in Hrun. injection Hrun as <-. constructor.
  - rewrite Hraise in Hrun. discriminate.
  - rewrite Hok in Hrun. by injection Hrun as <-.
  - rewrite Hraise in Hrun. discriminate.
Qed.

Lemma generate_handles_length labels colors edge alpha hs :
  generate_handles labels colors edge alpha = Ok hs →
  length hs = length labels.
Proof.
  intros Hall%generate_handles_ok_inv.
  apply Forall2_length in Hall. by rewrite length_seq in Hall.
Qed.

(** The handle found at an index of a returned list. *)
Lemma generate_handles_lookup labels colors edge alpha hs (i : nat) h :
  generate_handles labels colors edge alpha = Ok hs →
  hs !! i = Some h →
  (i < length labels)%nat ∧ handle_at colors edge alpha i h.
Proof.
  intros Hrun Hh. pose proof (generate_handles_length _ _ _ _ _ Hrun) as Hlen.
  apply generate_handles_ok_inv in Hrun.
  destruct (Forall2_lookup_r _ _ _ _ _ Hrun Hh) as (j & Hj & Hat).
  apply lookup_seq in Hj as [-> Hlt]. done.
Qed.

(** A loop over a concatenation runs the two loops in turn. *)
Lemma for_in_app {A S} (xs ys : list A) (body : A → S → result S) (s : S) :
  for_in (xs ++ ys) body s = bind (for_in xs body s) (for_in ys body).
Proof.
  revert s. induction xs as [| x xs IH]; intros s; [done |].
  cbn. destruct (body x s) as [s' |]; cbn; [apply IH | done].
Qed.

(** Two loop bodies that agree on the elements visited give the same
    loop. *)
Lemma for_in_ext {A S} (xs : list A) (body1 body2 : A → S → result S) (s : S) :
  (∀ x s', x ∈ xs → body1 x s' = body2 x s') →
  for_in xs body1 s = for_in xs body2 s.
Proof.
  revert s. induction xs as [| x xs IH]; intros s Hext; [done |].
  cbn. rewrite (Hext x s) by constructor.
  destruct (body2 x s) as [s' |]; cbn; [| done].
  apply IH. intros y s'' Hy. apply Hext. by constructor.
Qed.

(** A call for fewer labels is the first part of the call for more. *)
Lemma generate_handles_app labels1 labels2 colors edge alpha :
  generate_handles (labels1 ++ labels2) colors edge alpha
  = bind (generate_handles labels1 colors edge alpha)
      (for_in (Z.of_nat <$> seq (length labels1) (length labels2))
         (append_handle colors (len colors) edge alpha)).
Proof.
  unfold generate_handles, range, len. rewrite !Nat2Z.id, length_app.
  by rewrite seq_app, fmap_app, for_in_app.
Qed.

(** The colour found at an index of the colour list written out [m] times. *)
Lemma lookup_repeated colors (m i : nat) :
  (i < m * length colors)%nat →
  concat (replicate m colors) !! i = colors !! (i `mod` length colors)%nat.
Proof.
  revert i. induction m as [| m IH]; intros i Hi; [lia |].
  cbn [replicate concat].
  destruct (decide (i < length colors)%nat) as [Hlt | Hge].
  - rewrite lookup_app_l by done. by rewrite Nat.mod_small.
  - rewrite lookup_app_r by lia. rewrite IH by lia. f_equal.
    replace i with ((i - length colors) + 1 * length colors)%nat at 2 by lia.
    by rewrite Nat.Div0.mod_add.
Qed.

(** The fill colours of a returned list, index by index. *)
Lemma generate_handles_fill_lookup labels colors edge alpha hs (i : nat) :
  generate_handles labels colors edge alpha = Ok hs →
  (facecolor <$> hs) !! i
  = if decide (i < length labels)%nat
    then colors !! (i `mod` length colors)%nat else None.
Proof.
  intros Hrun. pose proof (generate_handles_length _ _ _ _ _ Hrun) as Hlen.
  rewrite list_lookup_fmap. case_decide as Hi.
  - destruct (lookup_lt_is_Some_2 hs i) as [h Hh]; [lia |].
    destruct (generate_handles_lookup _ _ _ _ _ _ _ Hrun Hh)
      as (_ & c & Hc & _ & ->).
    by rewrite Hh, Hc.
  - rewrite (proj2 (lookup_ge_None hs i)); [done | lia].
Qed.

(** The handles of a returned list, index by index. *)
Lemma generate_handles_handle_lookup labels colors edge alpha hs (i : nat) :
  generate_handles labels colors edge alpha = Ok hs →
  hs !! i
  = if decide (i < length labels)%nat
    then (λ c, mkRectangle (0, 0) 1 1 c edge alpha)
           <$> colors !! (i `mod` length colors)%nat
    else None.
Proof.
  intros Hrun. pose proof (generate_handles_length _ _ _ _ _ Hrun) as Hlen.
  case_decide as Hi.
  - destruct (lookup_lt_is_Some_2 hs i) as [h Hh]; [lia |].
    destruct (generate_handles_lookup _ _ _ _ _ _ _ Hrun Hh)
      as (_ & c & Hc & _ & ->).
    by rewrite Hh, Hc.
  - apply lookup_ge_None. lia.
Qed.

(** With at least as many colours as indices visited, the loop body does
    not look past the first [n] colours. *)
Lemma append_handle_take colors edge alpha (n i : nat) handles :
  (i < n)%nat → (n ≤ length colors)%nat →
  append_handle colors (len colors) edge alpha (Z.of_nat i) handles
  = append_handle (take n colors) (len (take n colors)) edge alpha
      (Z.of_nat i) handles.
Proof.
  intros Hi Hn.
  assert (Hne : colors ≠ []) by (destruct colors; [cbn in Hn; lia | done]).
  assert (Hne' : take n colors ≠ []).
  { intros Hnil. apply (f_equal length) in Hnil.
    rewrite length_take in Hnil. cbn in Hnil. lia. }
  destruct (append_handle_step colors edge alpha i handles Hne)
    as (c & Hc & ->).
  destruct (append_handle_step (take n colors) edge alpha i handles Hne')
    as (c' & Hc' & ->).
  rewrite length_take, Nat.min_l in Hc' by done.
  rewrite Nat.mod_small in Hc by lia. rewrite Nat.mod_small in Hc' by done.
  rewrite lookup_take_lt in Hc' by done. by simplify_eq.
Qed.

End LegendMoreFacts.

Section LegendExtras.
Import Py Legend.

(** X1: [generate_handles] raises nothing of its own besides
    ZeroDivisionError, which needs a non-empty label list and an empty
    colour list: any other exception is the one the patch constructor
    raised for one of the colours.  The index into [colors] is never out of
    range. *)
Theorem generate_handles_exceptions {T} {P : PatchInit T}
    (labels : list string) (colors : list color) (edge : color) (alpha : T)
    (e : exn) :
  generate_handles labels colors edge alpha = Raise e →
  (e = ZeroDivisionError ∧ colors = [] ∧ labels ≠ [])
  ∨ (colors ≠ [] ∧ labels ≠ []
     ∧ ∃ c, c ∈ colors ∧ patch_check c edge alpha = Raise e).
Proof.
  intros Hrun.
  destruct (generate_handles_cases labels colors edge alpha)
    as [[_ Hok] | [(Hl & Hc & Hraise) | [(_ & hs & Hok & _)
                                        | (Hne & e' & c & Hin & Hc & Hraise)]]].
  - rewrite Hok in Hrun. discriminate.
  - rewrite Hraise in Hrun. injection Hrun as <-. by left.
  - rewrite Hok in Hrun. discriminate.
  - rewrite Hraise in Hrun. injection Hrun as <-. right.
    split; [done |]. split; [| by exists c].
    intros ->. discriminate Hraise.
Qed.

Lemma generate_handles_exceptions_witness :
  (ValueError = ZeroDivisionError ∧ ["red"; "notacolor"] = []
   ∧ ["a"; "b"] ≠ [])
  ∨ (["red"; "notacolor"] ≠ [] ∧ ["a"; "b"] ≠ []
     ∧ ∃ c, c ∈ ["red"; "notacolor"]
            ∧ patch_check (PatchInit := Sample.patch_init) c "k" 1
              = Raise ValueError).
Proof.
  apply (generate_handles_exceptions (P := Sample.patch_init)
           ["a"; "b"] ["red"; "notacolor"] "k" 1 ValueError).
  reflexivity.
Defined.

(** X2: every handle returned is the unit square anchored at the origin,
    and its fill is one of the colours passed in. *)
Theorem generate_handles_unit_squares {T} {P : PatchInit T}
    (labels : list string)
    (colors : list color) (edge : color) (alpha : T)
    (hs : list (Rectangle T)) :
  generate_handles labels colors edge alpha = Ok hs →
  Forall (λ h, xy h = (0, 0) ∧ width h = 1 ∧ height h = 1
               ∧ facecolor h ∈ colors) hs.
Proof.
  intros Hrun. apply Forall_lookup. intros i h Hh.
  destruct (generate_handles_lookup _ _ _ _ _ _ _ Hrun Hh)
    as (_ & c & Hc & _ & ->).
  repeat split. cbn. by eapply list_elem_of_lookup_2.
Qed.

Lemma generate_handles_unit_squares_witness :
  Forall (λ h, xy h = (0, 0) ∧ width h = 1 ∧ height h = 1
               ∧ facecolor h ∈ ["red"; "blue"])
    [mkRectangle (0, 0) 1 1 "red" "k" 1;
     mkRectangle (0, 0) 1 1 "blue" "k" 1;
     mkRectangle (0, 0) 1 1 "red" "k" 1].
Proof.
  apply (generate_handles_unit_squares (P := Sample.patch_init)
           ["a"; "b"; "c"] ["red"; "blue"] "k" 1).
  reflexivity.
Defined.

(** X3: the returned list is periodic in the number of colours: the handle
    [len(colors)] places further on is the same handle. *)
Theorem generate_handles_periodic {T} {P : PatchInit T}
    (labels : list string)
    (colors : list color) (edge : color) (alpha : T)
    (hs : list (Rectangle T)) (i : nat) (h : Rectangle T) :
  generate_handles labels colors edge alpha = Ok hs →
  hs !! (i + length colors)%nat = Some h →
  hs !! i = Some h.
Proof.
  intros Hrun Hh.
  rewrite (generate_handles_handle_lookup _ _ _ _ _ _ Hrun) in Hh.
  rewrite (generate_handles_handle_lookup _ _ _ _ _ _ Hrun).
  case_decide as Hi; [| done].
  rewrite decide_True by lia. rewrite <- Hh. f_equal. f_equal.
  replace (i + length colors)%nat with (i + 1 * length colors)%nat by lia.
  by rewrite Nat.Div0.mod_add.
Qed.

Lemma generate_handles_periodic_witness :
  [mkRectangle (0, 0) 1 1 "red" "k" 1;
   mkRectangle (0, 0) 1 1 "blue" "k" 1;
   mkRectangle (0, 0) 1 1 "red" "k" 1] !! 0%nat
  = Some (mkRectangle (0, 0) 1 1 "red" "k" 1).
Proof.
  apply (generate_handles_periodic (P := Sample.patch_init)
           ["a"; "b"; "c"] ["red"; "blue"] "k" 1
           _ 0%nat (mkRectangle (0, 0) 1 1 "red" "k" 1)).
  - reflexivity.
  - reflexivity.
Defined.

End LegendExtras.

Section LegendCycleExtras.
Import Py Legend.

(** X4: more labels only add handles at the end: if the call returns for
    [labels1 ++ labels2], it returns for [labels1] alone, with the first
    [len(labels1)] of those handles. *)
Theorem generate_handles_prefix {T} {P : PatchInit T}
    (labels1 labels2 : list string)
    (colors : list color) (edge : color) (alpha : T)
    (hs : list (Rectangle T)) :
  generate_handles (labels1 ++ labels2) colors edge alpha = Ok hs →
  generate_handles labels1 colors edge alpha = Ok (take (length labels1) hs).
Proof.
  intros Hrun.
  destruct (generate_handles labels1 colors edge alpha) as [hs1 | e] eqn:Hrun1;
    cycle 1.
  { rewrite generate_handles_app, Hrun1 in Hrun. discriminate. }
  f_equal. apply list_eq. intros i.
  rewrite lookup_take.
  rewrite (generate_handles_handle_lookup _ _ _ _ _ _ Hrun1).
  rewrite (generate_handles_handle_lookup _ _ _ _ _ _ Hrun).
  rewrite length_app. repeat case_decide; try done; lia.
Qed.

Lemma generate_handles_prefix_witness :
  generate_handles (P := Sample.patch_init) ["a"; "b"] ["red"; "blue"] "k" 1
  = Ok (take (length ["a"; "b"])
          [mkRectangle (0, 0) 1 1 "red" "k" 1;
           mkRectangle (0, 0) 1 1 "blue" "k" 1;
           mkRectangle (0, 0) 1 1 "red" "k" 1]).
Proof.
  apply (generate_handles_prefix (P := Sample.patch_init)
           ["a"; "b"] ["c"] ["red"; "blue"] "k" 1).
  reflexivity.
Defined.

(** X5: whenever [generate_handles] returns, the fill colours of the
    handles are the colour list written out over and over, cut to the
    number of labels. *)
Theorem generate_handles_fills_repeat {T} {P : PatchInit T}
    (labels : list string) (colors : list color) (edge : color) (alpha : T)
    (hs : list (Rectangle T)) :
  generate_handles labels colors edge alpha = Ok hs →
  facecolor <$> hs
  = take (length labels) (concat (replicate (length labels) colors)).
Proof.
  intros Hrun. apply list_eq. intros i.
  rewrite (generate_handles_fill_lookup _ _ _ _ _ _ Hrun), lookup_take.
  case_decide as Hi; [| done].
  destruct colors as [| c0 colors].
  - destruct (generate_handles_cases labels [] edge alpha)
      as [[-> _] | [(_ & _ & Hraise) | [(Hne & _) | (Hne & _)]]].
    + cbn in Hi. lia.
    + rewrite Hraise in Hrun. discriminate.
    + done.
    + done.
  - rewrite lookup_repeated; [done |]. cbn [length].
    rewrite Nat.mul_succ_r. lia.
Qed.

Lemma generate_handles_fills_repeat_witness :
  facecolor <$> [mkRectangle (0, 0) 1 1 "red" "k" 1;
                 mkRectangle (0, 0) 1 1 "blue" "k" 1;
                 mkRectangle (0, 0) 1 1 "red" "k" 1]
  = take (length ["a"; "b"; "c"])
      (concat (replicate (length ["a"; "b"; "c"]) ["red"; "blue"])).
Proof.
  apply (generate_handles_fills_repeat (P := Sample.patch_init)
           ["a"; "b"; "c"] ["red"; "blue"] "k" 1).
  reflexivity.
Defined.

(** X6: with at least as many colours as labels nothing cycles and the
    colours beyond the number of labels are never looked at: dropping them
    leaves the outcome of the call as it is, and when the call returns the
    [i]-th handle is filled with the [i]-th colour. *)
Theorem generate_handles_enough_colors {T} {P : PatchInit T}
    (labels : list string) (colors : list color) (edge : color) (alpha : T) :
  (length labels ≤ length colors)%nat →
  generate_handles labels colors edge alpha
  = generate_handles labels (take (length labels) colors) edge alpha
  ∧ ∀ hs, generate_handles labels colors edge alpha = Ok hs →
      facecolor <$> hs = take (length labels) colors.
Proof.
  intros Hle. split.
  - unfold generate_handles, range. unfold len at 1 3. rewrite Nat2Z.id.
    apply for_in_ext. intros x handles Hx.
    apply list_elem_of_fmap in Hx as (i & -> & Hi).
    apply elem_of_seq in Hi. apply append_handle_take; [lia | done].
  - intros hs Hrun. apply list_eq. intros i.
    rewrite (generate_handles_fill_lookup _ _ _ _ _ _ Hrun), lookup_take.
    case_decide as Hi; [| done].
    by rewrite Nat.mod_small by lia.
Qed.

Lemma generate_handles_enough_colors_witness :
  generate_handles (P := Sample.patch_init)
    ["a"; "b"] ["red"; "blue"; "notacolor"] "k" 1
  = generate_handles (P := Sample.patch_init)
      ["a"; "b"] (take (length ["a"; "b"]) ["red"; "blue"; "notacolor"]) "k" 1
  ∧ ∀ hs, generate_handles (P := Sample.patch_init)
            ["a"; "b"] ["red"; "blue"; "notacolor"] "k" 1 = Ok hs →
      facecolor <$> hs
      = take (length ["a"; "b"]) ["red"; "blue"; "notacolor"].
Proof.
  apply (generate_handles_enough_colors (P := Sample.patch_init)
           ["a"; "b"] ["red"; "blue"; "notacolor"] "k" 1).
  cbn. lia.
Defined.

(** X7: with a single colour, a call that returns gives every label the
    same handle. *)
Theorem generate_handles_single_color {T} {P : PatchInit T}
    (labels : list string) (c : color) (edge : color) (alpha : T)
    (hs : list (Rectangle T)) :
  generate_handles labels [c] edge alpha = Ok hs →
  hs = replicate (length labels) (mkRectangle (0, 0) 1 1 c edge alpha).
Proof.
  intros Hrun. apply list_eq. intros i.
  rewrite (generate_handles_handle_lookup _ _ _ _ _ _ Hrun).
  case_decide as Hi.
  - rewrite lookup_replicate_2 by done. cbn [length].
    by rewrite Nat.mod_1_r.
  - symmetry. apply lookup_replicate_None. lia.
Qed.

Lemma generate_handles_single_color_witness :
  [mkRectangle (0, 0) 1 1 "green" "k" 1; mkRectangle (0, 0) 1 1 "green" "k" 1]
  = replicate (length ["a"; "b"]) (mkRectangle (0, 0) 1 1 "green" "k" 1).
Proof.
  apply (generate_handles_single_color (P := Sample.patch_init)
           ["a"; "b"] "green" "k" 1).
  reflexivity.
Defined.

(** X8: the edge colour and the opacity have no part in the fill colours:
    two calls that return for the same labels and colours give handles with
    the same fills, whatever edge colour and opacity each was given. *)
Theorem generate_handles_style_blind {T T'} {P : PatchInit T}
    {P' : PatchInit T'} (labels : list string)
    (colors : list color) (edge edge' : color) (alpha : T) (alpha' : T')
    (hs : list (Rectangle T)) (hs' : list (Rectangle T')) :
  generate_handles labels colors edge alpha = Ok hs →
  generate_handles labels colors edge' alpha' = Ok hs' →
  facecolor <$> hs' = facecolor <$> hs.
Proof.
  intros Hrun Hrun'. apply list_eq. intros i.
  by rewrite (generate_handles_fill_lookup _ _ _ _ _ _ Hrun),
    (generate_handles_fill_lookup _ _ _ _ _ _ Hrun').
Qed.

Lemma generate_handles_style_blind_witness :
  facecolor <$> [mkRectangle (0, 0) 1 1 "none" "r" 1]
  = facecolor <$> [mkRectangle (0, 0) 1 1 "none" "k" 0].
Proof.
  apply (generate_handles_style_blind (P := Sample.patch_init)
           (P' := Sample.patch_init) [""] ["none"] "k" "r" 0 1).
  - reflexivity.
  - reflexivity.
Defined.

End LegendCycleExtras.


(** * Further properties of the script body *)

Section ScriptMoreFacts.
Import Py Geo Agg Script.
Context {Geometry : Type}.
Variable intersects : Geometry → Geometry → bool.

Lemma foldl_add_from (a : Z) (xs : list Z) :
  foldl Z.add a xs = a + foldl Z.add 0 xs.
Proof.
  revert a. induction xs as [| x xs IH]; intros a; cbn [foldl]; [lia |].
  rewrite (IH (a + x)), (IH (0 + x)). lia.
Qed.

Lemma sum_cons (x : Z) (xs : list Z) : sum (x :: xs) = x + sum xs.
Proof. unfold sum. cbn [foldl]. rewrite foldl_add_from. lia. Qed.

Lemma sum_app (xs ys : list Z) : sum (xs ++ ys) = sum xs + sum ys.
Proof.
  induction xs as [| x xs IH]; [done |].
  rewrite <- app_comm_cons, !sum_cons, IH. lia.
Qed.

(** The rows one ward gives carry its population, once per match. *)
Lemma joined_rows_of_population (counties : list (@Feature Geometry CountyAttrs))
    (w : @Feature Geometry WardAttrs) :
  sum (col_Population <$> joined_rows_of intersects counties w)
  = Population (attrs w)
    * Z.of_nat (length (matching intersects (geometry w) counties)).
Proof.
  unfold joined_rows_of.
  induction (matching intersects (geometry w) counties) as [| c cs IH];
    [cbn; lia |].
  rewrite !fmap_cons, sum_cons, IH. cbn [length]. unfold col_Population. cbn.
  lia.
Qed.

Lemma total_join_rows (wards : list (@Feature Geometry WardAttrs))
    (counties : list (@Feature Geometry CountyAttrs)) :
  total (join_rows intersects wards counties)
  = sum ((λ w, Population (attrs w)
               * Z.of_nat (length (matching intersects (geometry w) counties)))
         <$> wards).
Proof.
  unfold total. induction wards as [| w wards IH]; [done |].
  rewrite join_rows_cons, fmap_app, sum_app, IH, fmap_cons, sum_cons.
  by rewrite joined_rows_of_population.
Qed.

End ScriptMoreFacts.

Section ScriptExtras.
Import Py Geo Agg Script.

(** X9: lines 32-48 never fail with a CRS mismatch, since both layers are
    brought to the same reference system before the join: the only failure
    is a layer without a reference system. *)
Theorem analysis_no_mismatch {Geometry : Type}
    (transform : CRS → CRS → Geometry → Geometry)
    (intersects : Geometry → Geometry → bool)
    (counties : GeoDataFrame CountyAttrs) (wards : GeoDataFrame WardAttrs)
    (e : exn) :
  analysis transform intersects counties wards = Raise e →
  e = ProjectionError ∧ (crs counties = None ∨ crs wards = None).
Proof.
  intros Hrun.
  destruct (crs counties) as [cc |] eqn:Hcc; cycle 1.
  { unfold analysis, to_crs in Hrun. rewrite Hcc in Hrun.
    injection Hrun as <-. auto. }
  destruct (crs wards) as [cw |] eqn:Hcw; cycle 1.
  { destruct (to_crs_defined transform target_epsg cc counties Hcc)
      as (counties' & Hc & _).
    unfold analysis in Hrun. rewrite Hc in Hrun. cbn in Hrun.
    unfold to_crs in Hrun. rewrite Hcw in Hrun.
    injection Hrun as <-. auto. }
  destruct (analysis_ok transform intersects counties wards) as (st & Hok & _);
    [by rewrite Hcc | by rewrite Hcw |].
  rewrite Hok in Hrun. discriminate.
Qed.

Lemma analysis_no_mismatch_witness :
  ProjectionError = ProjectionError
  ∧ (crs Sample.counties = None
     ∨ crs (mkGeoDataFrame None [Sample.ward_a]) = None).
Proof.
  apply (analysis_no_mismatch Sample.box_transform Sample.box_intersects
           Sample.counties (mkGeoDataFrame None [Sample.ward_a])
           ProjectionError).
  reflexivity.
Defined.

(** X10: in the total of line 44 a ward counts once for every county it
    matches: the total over the joined table is the sum over the wards of
    the ward's population times the number of its matching counties. *)
Theorem total_counts_matches {Geometry : Type}
    (intersects : Geometry → Geometry → bool)
    (wards : GeoDataFrame WardAttrs) (counties : GeoDataFrame CountyAttrs)
    (join : GeoDataFrame (WardAttrs * CountyAttrs)) :
  sjoin intersects wards counties = Ok join →
  total (rows join)
  = sum ((λ w, Population (attrs w)
               * Z.of_nat (length (matching intersects (geometry w)
                                     (rows counties))))
         <$> rows wards).
Proof.
  unfold sjoin. case_decide; [| discriminate].
  intros [= <-]. cbn [rows]. apply total_join_rows.
Qed.

Lemma total_counts_matches_witness :
  total (join_rows Sample.box_intersects (rows Sample.wards)
           (rows Sample.counties))
  = sum ((λ w, Population (attrs w)
               * Z.of_nat (length (matching Sample.box_intersects (geometry w)
                                     (rows Sample.counties))))
         <$> rows Sample.wards).
Proof.
  apply (total_counts_matches Sample.box_intersects Sample.wards
           Sample.counties
           (mkGeoDataFrame (Some 29902)
              (join_rows Sample.box_intersects (rows Sample.wards)
                 (rows Sample.counties)))).
  reflexivity.
Defined.

(** X11: when every ward matches exactly one county, the total of line 44
    is the sum of the ward populations: no ward is lost or counted twice. *)
Theorem total_one_county_each {Geometry : Type}
    (intersects : Geometry → Geometry → bool)
    (wards : GeoDataFrame WardAttrs) (counties : GeoDataFrame CountyAttrs)
    (join : GeoDataFrame (WardAttrs * CountyAttrs)) :
  sjoin intersects wards counties = Ok join →
  Forall (λ w, length (matching intersects (geometry w) (rows counties))
               = 1%nat) (rows wards) →
  length (rows join) = length (rows wards)
  ∧ total (rows join) = sum ((λ w, Population (attrs w)) <$> rows wards).
Proof.
  unfold sjoin. case_decide; [| discriminate].
  intros [= <-] Hone. cbn [rows]. split.
  - induction Hone as [| w ws Hw _ IH]; [done |].
    rewrite join_rows_cons, length_app, joined_rows_of_length, Hw, IH. done.
  - rewrite total_join_rows. f_equal.
    induction Hone as [| w ws Hw _ IH]; [done |].
    rewrite !fmap_cons, Hw, IH. f_equal. lia.
Qed.

Lemma total_one_county_each_witness :
  length (join_rows Sample.box_intersects (rows Sample.wards_two)
            (rows Sample.counties_one))
  = length (rows Sample.wards_two)
  ∧ total (join_rows Sample.box_intersects (rows Sample.wards_two)
             (rows Sample.counties_one))
    = sum ((λ w, Population (attrs w)) <$> rows Sample.wards_two).
Proof.
  apply (total_one_county_each Sample.box_intersects Sample.wards_two
           Sample.counties_one
           (mkGeoDataFrame (Some 29902)
              (join_rows Sample.box_intersects (rows Sample.wards_two)
                 (rows Sample.counties_one)))).
  - reflexivity.
  - repeat constructor.
Defined.

End ScriptExtras.
